(** * The image-generation MCP server (mcp-server.ts), embedded in Rocq

    The development follows the server source top to bottom: the values
    that reach the handlers after JSON parsing, the start-up credential
    check, the [tools/list] descriptor, and the [tools/call] handler with
    its validation, its per-model options object and its try/catch around
    the provider call.  Effects (stderr, provider invocations, thrown
    errors) are threaded through a small state-and-exception monad. *)

From Stdlib Require Import ZArith String Ascii List Bool Lia.
From Stdlib Require Import SpecFloat DecimalString DecimalNat Decimal.
From stdpp Require Import base option strings list gmap.

Set Warnings "-register-all".

(** ** JavaScript values *)

Module JS.

(** A JavaScript number is an IEEE 754 binary64; [spec_float] is the
    Standard Library's carrier for them. *)
Definition number : Type := spec_float.

(** The values a handler can see: what [JSON.parse] produces, plus
    [undefined] for a property that is not there. *)
Inductive value : Type :=
| VUndefined
| VNull
| VBool (b : bool)
| VNum (x : number)
| VStr (s : string)
| VArr (items : list value)
| VObj (fields : list (string * value)).

(** ToBoolean: [undefined], [null], [false], [0], [-0], [NaN] and the
    empty string are falsy, everything else (every object) is truthy. *)
Definition truthy (v : value) : bool :=
  match v with
  | VUndefined | VNull => false
  | VBool b => b
  | VNum (S754_zero _) | VNum S754_nan => false
  | VNum _ => true
  | VStr s => negb (String.eqb s "")
  | VArr _ | VObj _ => true
  end.

(** [a || b] *)
Definition or_else (a b : value) : value := if truthy a then a else b.

(** [v === 'lit'] for a string literal. *)
Definition strict_eq_str (v : value) (lit : string) : bool :=
  match v with
  | VStr s => String.eqb s lit
  | _ => false
  end.

(** An integer literal as a binary64 (53-bit mantissa, exponents below
    1024), through the library's normalisation. *)
Definition num_of_Z (z : Z) : number := binary_normalize 53 1024 z 0 false.

(** An object literal: its own properties in source order.  A property
    written [k: e] exists even when [e] evaluates to [undefined]. *)
Definition obj : Type := list (string * value).

Fixpoint get (o : obj) (k : string) : value :=
  match o with
  | [] => VUndefined
  | (k', v) :: o' => if String.eqb k' k then v else get o' k
  end.

Definition keys (o : obj) : list string := map fst o.

(** [String.prototype.startsWith] *)
Definition startsWith (s p : string) : bool := String.prefix p s.

End JS.
Import JS.

(** Reading a property of the [arguments] object of a [tools/call]
    request.  The handler's cast types [arguments] as an object, here a
    finite map from property names to JSON values; a missing property
    reads as [undefined]. *)
Definition prop (args : gmap string value) (k : string) : value :=
  default VUndefined (args !! k).

(** ** Building the options object (mcp-server.ts, lines 198-235) *)

Definition build_options (args : gmap string value) : obj :=
  let model := or_else (prop args "model") (VStr "dall-e-2") in
  if strict_eq_str model "gpt-image-1" then
    [ ("model", VStr "gpt-image-1");
      ("n", prop args "n");
      ("size", prop args "size");
      ("quality", prop args "quality");
      ("background", prop args "background");
      ("moderation", prop args "moderation");
      ("output_compression", prop args "output_compression");
      ("output_format", prop args "output_format");
      ("partial_images", prop args "partial_images");
      ("stream", prop args "stream");
      ("user", prop args "user") ]
  else if strict_eq_str model "dall-e-3" then
    [ ("model", VStr "dall-e-3");
      ("n", VNum (num_of_Z 1));
      ("size", prop args "size");
      ("quality", prop args "quality");
      ("style", prop args "style");
      ("response_format", prop args "response_format");
      ("user", prop args "user") ]
  else
    [ ("model", VStr "dall-e-2");
      ("n", prop args "n");
      ("size", prop args "size");
      ("response_format", prop args "response_format");
      ("user", prop args "user") ].

(** ** Effects: stderr, provider invocations, thrown errors *)

(** The SDK's error codes the server names, with their JSON-RPC numbers. *)
Inductive ErrorCode : Type := MethodNotFound | InvalidParams.

Definition ErrorCode_number (c : ErrorCode) : string :=
  match c with
  | MethodNotFound => "-32601"
  | InvalidParams => "-32602"
  end.

(** A thrown [Error] object.  [code] is set on the SDK's [McpError]
    subclass only. *)
Record Error : Type := { code : option ErrorCode; message : string }.

(** [new McpError(code, text)]; the SDK's constructor prefixes the text. *)
Definition McpError (c : ErrorCode) (text : string) : Error :=
  {| code := Some c;
     message := "MCP error " +:+ ErrorCode_number c +:+ ": " +:+ text |}.

(** One argument of a [console.error] call. *)
Inductive logged : Type :=
| Text (s : string)
| Val (v : value)
| Json (o : obj)            (* JSON.stringify(o, null, 2) *)
| Err (e : Error).

(** One call of [openAiProvider.generateImage]. *)
Record invocation : Type :=
  { inv_prompt : value; inv_output : value; inv_options : obj }.

Record world : Type :=
  { stderr : list (list logged); invocations : list invocation }.

Inductive completion (A : Type) : Type :=
| Normal (a : A)
| Throw (e : Error).
Arguments Normal {A} a.
Arguments Throw {A} e.

Definition M (A : Type) : Type := world → completion A * world.

#[global] Instance M_ret : MRet M := λ A a w, (Normal a, w).

#[global] Instance M_bind : MBind M := λ A B f m w,
  match m w with
  | (Normal a, w') => f a w'
  | (Throw e, w') => (Throw e, w')
  end.

Definition throw {A : Type} (e : Error) : M A := λ w, (Throw e, w).

(** [try { body } catch (error) { handler }] *)
Definition try_catch {A : Type} (body : M A) (handler : Error → M A) : M A :=
  λ w, match body w with
       | (Normal a, w') => (Normal a, w')
       | (Throw e, w') => handler e w'
       end.

Definition console_error (line : list logged) : M unit :=
  λ w, (Normal tt, {| stderr := stderr w ++ [line]; invocations := invocations w |}).

(** A computation that only returns or throws. *)
Definition lift {A : Type} (r : A + Error) : M A :=
  match r with
  | inl a => mret a
  | inr e => throw e
  end.

(** ** Start-up (mcp-server.ts, lines 17-28 and 279-280) *)

Inductive process : Type :=
| Exited (status : Z)
| Serving (apiKey : string).

Definition dquote : string := String (ascii_of_nat 34) "".

(** [process.env.OPENAI_API_KEY] is a string or [undefined]. *)
Definition env_value (e : option string) : value :=
  match e with
  | Some s => VStr s
  | None => VUndefined
  end.

(** The two [console.error] lines of each check. *)
Definition missing_key_diagnostic : list string :=
  [ "ERROR: OPENAI_API_KEY environment variable is required";
    "Please provide your OpenAI API key in the .env file or in the MCP settings configuration." ].

Definition key_format_warning : list string :=
  [ "WARNING: The OPENAI_API_KEY does not appear to be in the expected format.";
    "OpenAI API keys typically start with " +:+ dquote +:+ "sk-" +:+ dquote +:+ "." ].

(** The module body: both checks, then the server is constructed around
    a provider holding the key and connected to stdio.  The result is what
    was written to stderr and what became of the process. *)
Definition startup (OPENAI_API_KEY : option string) : list string * process :=
  if negb (truthy (env_value OPENAI_API_KEY)) then
    (missing_key_diagnostic, Exited 1)
  else
    let key := default "" OPENAI_API_KEY in
    let warning :=
      if negb (startsWith key "sk-") then key_format_warning else [] in
    (warning ++ [ "Image Generation MCP server running on stdio" ], Serving key).

(** ** The tool descriptor (mcp-server.ts, lines 62-153) *)

(** One entry of [inputSchema.properties]. *)
Record PropertySchema : Type :=
  { ps_type : string;
    ps_description : string;
    ps_enum : option (list string);
    ps_default : option value;
    ps_minimum : option number;
    ps_maximum : option number }.

Definition simple_property (ty description : string) : PropertySchema :=
  {| ps_type := ty; ps_description := description; ps_enum := None;
     ps_default := None; ps_minimum := None; ps_maximum := None |}.

Definition enum_property (description : string) (alternatives : list string)
    : PropertySchema :=
  {| ps_type := "string"; ps_description := description;
     ps_enum := Some alternatives;
     ps_default := None; ps_minimum := None; ps_maximum := None |}.

Definition integer_property (description : string) (lo hi : Z)
    (dflt : option value) : PropertySchema :=
  {| ps_type := "integer"; ps_description := description; ps_enum := None;
     ps_default := dflt;
     ps_minimum := Some (num_of_Z lo); ps_maximum := Some (num_of_Z hi) |}.

Record InputSchema : Type :=
  { schema_type : string;
    properties : list (string * PropertySchema);
    required : list string }.

Record Tool : Type :=
  { name : string; description : string; inputSchema : InputSchema }.

Record ListToolsResult : Type := { tools : list Tool }.

Definition generate_image_tool : Tool :=
  {| name := "generate_image";
     description := "Generate an image using OpenAI's image generation models (DALL-E or GPT-Image) and save it to a file";
     inputSchema :=
       {| schema_type := "object";
          properties :=
            [ ("prompt", simple_property "string"
                 "A text description of the desired image. Max length: 32000 chars (gpt-image-1), 4000 chars (dall-e-3), 1000 chars (dall-e-2)");
              ("output", simple_property "string"
                 "File path where the generated image should be saved (e.g., /path/to/image.png)");
              ("model",
                 {| ps_type := "string";
                    ps_description := "The model to use for image generation";
                    ps_enum := Some ["gpt-image-1"; "dall-e-3"; "dall-e-2"];
                    ps_default := Some (VStr "dall-e-2");
                    ps_minimum := None; ps_maximum := None |});
              ("n", integer_property
                 "Number of images to generate (1-10 for dall-e-2/gpt-image-1, only 1 for dall-e-3)"
                 1 10 (Some (VNum (num_of_Z 1))));
              ("size", simple_property "string"
                 "Size: gpt-image-1(1024x1024,1536x1024,1024x1536,auto), dall-e-3(1024x1024,1792x1024,1024x1792), dall-e-2(256x256,512x512,1024x1024)");
              ("quality", simple_property "string"
                 "Quality: gpt-image-1(low,medium,high,auto), dall-e-3(standard,hd)");
              ("style", enum_property
                 "Style for dall-e-3 only: vivid or natural" ["vivid"; "natural"]);
              ("response_format", enum_property
                 "Response format for dall-e-2/dall-e-3 only (not supported by gpt-image-1)"
                 ["url"; "b64_json"]);
              ("background", enum_property
                 "Background transparency for gpt-image-1 only"
                 ["transparent"; "opaque"; "auto"]);
              ("moderation", enum_property
                 "Content moderation level for gpt-image-1 only" ["low"; "auto"]);
              ("output_compression", integer_property
                 "Compression level (0-100) for gpt-image-1 with webp/jpeg format"
                 0 100 None);
              ("output_format", enum_property
                 "Output format for gpt-image-1 only" ["png"; "jpeg"; "webp"]);
              ("partial_images", integer_property
                 "Number of partial images (0-3) for streaming with gpt-image-1"
                 0 3 None);
              ("stream", simple_property "boolean"
                 "Enable streaming mode for gpt-image-1 only");
              ("user", simple_property "string"
                 "Unique identifier for your end-user (optional)") ];
          required := ["prompt"; "output"] |} |}.

(** The [ListToolsRequestSchema] handler. *)
Definition list_tools : M ListToolsResult :=
  mret {| tools := [generate_image_tool] |}.

(** ** The [tools/call] handler (mcp-server.ts, lines 155-269) *)

(** [request.params] of a [tools/call] request. *)
Record CallToolParams : Type :=
  { tool_name : string; arguments : gmap string value }.

Record TextContent : Type := { type : string; text : string }.

(** [isError] is [None] where the returned object has no such property. *)
Record CallToolResult : Type :=
  { content : list TextContent; isError : option bool }.

(** [s || 'fallback'] on strings. *)
Definition or_else_str (s fallback : string) : string :=
  if String.eqb s "" then fallback else s.

Section Handler.

(** What the provider's promise resolves to. *)
Variable GenerationResult : Type.

(** The provider call: for the prompt, output path and options it is
    given, the promise resolves or rejects. *)
Variable generateImage : value → value → obj → GenerationResult + Error.

(** [JSON.stringify({success: true, savedFiles: result.savedFiles,
    response: result.response}, null, 2)]; reading the result or
    serialising it may throw. *)
Variable success_text : GenerationResult → string + Error.

Definition await_generateImage (prompt output : value) (options : obj)
    : M GenerationResult :=
  λ w,
    let w' := {| stderr := stderr w;
                 invocations := invocations w ++
                   [ {| inv_prompt := prompt; inv_output := output;
                        inv_options := options |} ] |} in
    lift (generateImage prompt output options) w'.

Definition call_tool (request : CallToolParams) : M CallToolResult :=
  if negb (String.eqb (tool_name request) "generate_image") then
    throw (McpError MethodNotFound ("Unknown tool: " +:+ tool_name request))
  else
    let args := arguments request in
    if negb (truthy (prop args "prompt")) then
      throw (McpError InvalidParams "Prompt is required")
    else if negb (truthy (prop args "output")) then
      throw (McpError InvalidParams "Output file path is required")
    else
      try_catch
        (let options := build_options args in
         console_error [Text "Sending request to OpenAI with options:"; Json options];;
         console_error [Text "Prompt:"; Val (prop args "prompt")];;
         console_error [Text "Output:"; Val (prop args "output")];;
         result ← await_generateImage (prop args "prompt") (prop args "output") options;
         text ← lift (success_text result);
         mret {| content := [ {| type := "text"; text := text |} ];
                 isError := None |})
        (λ error,
           console_error [Text "Error generating image:"; Err error];;
           mret {| content :=
                     [ {| type := "text";
                          text := "Error generating image: " +:+
                                  or_else_str (message error) "Unknown error" |} ];
                   isError := Some true |}).

End Handler.

(** ** The Image Provider Adapter *)

Module Provider.

(** Modelled from the spec: the Image Provider Adapter
    (openai-provider.ts, which the server imports) is missing from the
    sources.  What follows is the specification's data model (section 3)
    and the non-streaming branch of its algorithm (section 4.3, steps 3
    and 4): one upstream request that answers with [n] images, each
    fetched or decoded and then written to its computed path; when
    [n > 1] the path carries a numeric suffix before the extension, as in
    [image.png], [image-1.png], [image-2.png]. *)
Inductive GeneratedImage : Type :=
| Url (url : string)
| Base64 (payload : string).

(** Modelled from the spec: [SavedFile] of the data model, the on-disk
    location of one generated image; [index] is the image's number, from 1. *)
Record SavedFile : Type := { path : string; index : nat }.

(** Modelled from the spec: [GenerationResult] as returned on success. *)
Record GenerationResult : Type :=
  { savedFiles : list SavedFile; response : value }.

(** Modelled from the spec: the two failures of the adapter's contract. *)
Inductive AdapterError : Type :=
| UpstreamError (reason : string)
| FilesystemError (reason : string).

(** Modelled from the spec: the numeric suffix, in decimal. *)
Definition decimal (i : nat) : string :=
  NilEmpty.string_of_uint (Nat.to_uint i).

(** Modelled from the spec: scanning the path from its end, the
    extension starts at the last dot of the last path component.  The
    argument is the reversed path; the result is the reversed stem and the
    extension, or [None] when the last component has no dot. *)
Fixpoint split_extension (reversed ext : list ascii)
    : option (list ascii * list ascii) :=
  match reversed with
  | [] => None
  | c :: rest =>
      if Ascii.eqb c "."%char then Some (rest, c :: ext)
      else if Ascii.eqb c "/"%char then None
      else split_extension rest (c :: ext)
  end.

(** Modelled from the spec: the numeric suffix goes before the
    extension, or at the end of a path without one. *)
Definition numbered_path (outputPath : string) (i : nat) : string :=
  match split_extension (rev (list_ascii_of_string outputPath)) [] with
  | Some (stem, ext) =>
      string_of_list_ascii (rev stem) +:+ "-" +:+ decimal i +:+
      string_of_list_ascii ext
  | None => outputPath +:+ "-" +:+ decimal i
  end.

(** Modelled from the spec: the path of the [i]-th of [n] images,
    counted from 1. *)
Definition file_path (outputPath : string) (n i : nat) : string :=
  if Nat.ltb 1 n then numbered_path outputPath i else outputPath.

Section Adapter.

(** The upstream call for a prompt and a count [n]: an error, or the
    images by position (the first [n] are the answer) with the response
    metadata. *)
Variable images_generate :
  string → nat → (nat → GeneratedImage) * value + string.

(** Fetching a remote URL and decoding an inline payload. *)
Variable fetch : string → string + string.
Variable decode : string → string.

(** Writing bytes to a path: [None] when written, or the failure. *)
Variable write_file : string → string → option string.

(** Modelled from the spec: a remote URL is fetched, an inline payload
    is decoded directly. *)
Definition image_bytes (img : GeneratedImage) : string + AdapterError :=
  match img with
  | Url u =>
      match fetch u with
      | inl bytes => inl bytes
      | inr reason => inr (UpstreamError reason)
      end
  | Base64 payload => inl (decode payload)
  end.

(** Modelled from the spec: persist the images numbered [i], [i+1], ...
    in turn; the first failure ends the call. *)
Fixpoint persist (outputPath : string) (n i : nat)
    (images : list GeneratedImage) : list SavedFile + AdapterError :=
  match images with
  | [] => inl []
  | img :: images' =>
      match image_bytes img with
      | inr e => inr e
      | inl bytes =>
          let p := file_path outputPath n i in
          match write_file p bytes with
          | Some reason => inr (FilesystemError reason)
          | None =>
              match persist outputPath n (S i) images' with
              | inl saved => inl ({| path := p; index := i |} :: saved)
              | inr e => inr e
              end
          end
      end
  end.

(** Modelled from the spec: [generateImage] without streaming. *)
Definition generateImage (prompt outputPath : string) (n : nat)
    : GenerationResult + AdapterError :=
  match images_generate prompt n with
  | inr reason => inr (UpstreamError reason)
  | inl (images, metadata) =>
      match persist outputPath n 1 (map images (seq 0 n)) with
      | inl saved => inl {| savedFiles := saved; response := metadata |}
      | inr e => inr e
      end
  end.

End Adapter.

End Provider.

(** ** Vocabulary of the statements *)

(** The three model identifiers of the schema's [model] enum. *)
Inductive Model : Type := GptImage1 | DallE3 | DallE2.

Definition model_id (m : Model) : string :=
  match m with
  | GptImage1 => "gpt-image-1"
  | DallE3 => "dall-e-3"
  | DallE2 => "dall-e-2"
  end.

(** The specification's data model (section 3): the fields of each
    [GenerationOptions] variant, next to the [model] tag. *)
Definition spec_variant_fields (m : Model) : list string :=
  match m with
  | GptImage1 =>
      [ "n"; "size"; "quality"; "background"; "moderation";
        "output_compression"; "output_format"; "partial_images"; "stream";
        "user" ]
  | DallE3 => [ "n"; "size"; "quality"; "style"; "response_format"; "user" ]
  | DallE2 => [ "n"; "size"; "response_format"; "user" ]
  end.


(** [msg] occurs in [s]. *)
Definition occurs_in (msg s : string) : Prop :=
  ∃ before after : string, s = before +:+ msg +:+ after.

(** The provider call a validated request leads to. *)
Definition invocation_of (args : gmap string value) : invocation :=
  {| inv_prompt := prop args "prompt";
     inv_output := prop args "output";
     inv_options := build_options args |}.

(** The three lines logged before the provider is called. *)
Definition request_lines (args : gmap string value) : list (list logged) :=
  [ [Text "Sending request to OpenAI with options:"; Json (build_options args)];
    [Text "Prompt:"; Val (prop args "prompt")];
    [Text "Output:"; Val (prop args "output")] ].

(** The world once a validated request has reached the provider. *)
Definition world_after_call (args : gmap string value) (w : world) : world :=
  {| stderr := stderr w ++ request_lines args;
     invocations := invocations w ++ [invocation_of args] |}.

(** The result the [catch] block returns for [error], and what it logs. *)
Definition error_result (error : Error) : CallToolResult :=
  {| content :=
       [ {| type := "text";
            text := "Error generating image: " +:+
                    or_else_str (message error) "Unknown error" |} ];
     isError := Some true |}.

Definition world_after_catch (error : Error) (w : world) : world :=
  {| stderr := stderr w ++ [[Text "Error generating image:"; Err error]];
     invocations := invocations w |}.

(** A request passes validation: the tool is known, prompt and output
    are truthy. *)
Definition validated (request : CallToolParams) : Prop :=
  tool_name request = "generate_image" ∧
  truthy (prop (arguments request) "prompt") = true ∧
  truthy (prop (arguments request) "output") = true.


(** A call that supplies [prompt], [output] and [model] and nothing else. *)
Definition minimal_call (p o : value) (m : Model) : CallToolParams :=
  {| tool_name := "generate_image";
     arguments := {[ "prompt" := p; "output" := o; "model" := VStr (model_id m) ]} |}.

(** The options object of the [else] branch. *)
Definition dalle2_options (args : gmap string value) : obj :=
  [ ("model", VStr "dall-e-2");
    ("n", prop args "n");
    ("size", prop args "size");
    ("response_format", prop args "response_format");
    ("user", prop args "user") ].

(** ** Sample inputs *)

Module Sample.

Definition args_of (l : list (string * value)) : gmap string value :=
  list_to_map l.

(** A [dall-e-3] call asking for five images. *)
Definition dalle3_n5 : CallToolParams :=
  {| tool_name := "generate_image";
     arguments := args_of [ ("prompt", VStr "A simple geometric shape");
                            ("output", VStr "out.png");
                            ("model", VStr "dall-e-3");
                            ("n", VNum (num_of_Z 5)) ] |}.

(** The call of the integration test: a tool name the server does not
    register. *)
Definition unknown_tool : CallToolParams :=
  {| tool_name := "generate_image_gpt";
     arguments := args_of [ ("prompt", VStr "A simple geometric shape");
                            ("output", VStr "test-gpt-image-1.png") ] |}.


(** A model outside the enum. *)
Definition unlisted_model : CallToolParams :=
  {| tool_name := "generate_image";
     arguments := args_of [ ("prompt", VStr "A simple geometric shape");
                            ("output", VStr "out.png");
                            ("model", VStr "gpt-image-1-mini");
                            ("quality", VStr "low") ] |}.

(** A provider that rejects every call, as with a bad key. *)
Definition rejecting : value → value → obj → unit + Error :=
  λ _ _ _, inr {| code := None; message := "401 Incorrect API key provided" |}.

(** A provider that resolves every call. *)
Definition resolving : value → value → obj → unit + Error :=
  λ _ _ _, inl tt.

Definition plain_text : unit → string + Error := λ _, inl "{}".

Definition empty_world : world := {| stderr := []; invocations := [] |}.

(** An upstream that answers every request with inline payloads. *)
Definition inline_upstream
    : string → nat → (nat → Provider.GeneratedImage) * value + string :=
  λ _ _, inl (λ _, Provider.Base64 "aGVsbG8=", VNull).

Definition no_fetch : string → string + string := λ _, inr "unreachable".
Definition identity_decode : string → string := λ s, s.
Definition always_written : string → string → option string := λ _ _, None.

(** What the adapter then returns for three images at [out.png]. *)
Definition three_saved : Provider.GenerationResult :=
  {| Provider.savedFiles :=
       [ {| Provider.path := "out-1.png"; Provider.index := 1 |};
         {| Provider.path := "out-2.png"; Provider.index := 2 |};
         {| Provider.path := "out-3.png"; Provider.index := 3 |} ];
     Provider.response := VNull |}.

End Sample.

(** ** Reading the schema *)

(** The entry of [inputSchema.properties] under the name [k]. *)
Definition property_of (tool : Tool) (k : string) : option PropertySchema :=
  snd <$> List.find (λ entry, String.eqb (fst entry) k)
                    (properties (inputSchema tool)).

(** The [enum] of the property [k], empty when there is none. *)
Definition enum_of (tool : Tool) (k : string) : list string :=
  default [] (property_of tool k ≫= ps_enum).

(** The [default] of the property [k]. *)
Definition default_of (tool : Tool) (k : string) : option value :=
  property_of tool k ≫= ps_default.

(** ** The integration test (integration-test.js) *)

Module IntegrationTest.

(** A JSON-RPC request as [createMCPRequest] builds it. *)
Record MCPRequest : Type :=
  { jsonrpc : string; id : Z; method : string; params : value }.

(** [requestId++] leaves this behind in the counter.  The counter starts
    at 1 and nothing else writes it, so it is an integer between 1 and
    2^53; up to there adding one is exact, and at 2^53 the sum rounds back
    to 2^53. *)
Definition increment (requestId : Z) : Z :=
  if Z.ltb requestId (2 ^ 53) then (requestId + 1)%Z else requestId.

(** [let requestId = 1] *)
Definition initial_requestId : Z := 1.

(** [createMCPRequest(method, params)] (lines 48-55): the request takes
    the current counter as its id, the counter moves on. *)
Definition createMCPRequest (method : string) (params : value) (requestId : Z)
    : MCPRequest * Z :=
  ({| jsonrpc := "2.0"; id := requestId; method := method; params := params |},
   increment requestId).

(** Requests created one after the other, as [runTests] does. *)
Fixpoint create_in_turn (calls : list (string * value)) (requestId : Z)
    : list MCPRequest * Z :=
  match calls with
  | [] => ([], requestId)
  | (method, params) :: calls' =>
      let '(request, requestId') := createMCPRequest method params requestId in
      let '(requests, requestId'') := create_in_turn calls' requestId' in
      (request :: requests, requestId'')
  end.

(** Line 136. *)
Definition expectedTools : list string :=
  [ "generate_image_gpt"; "generate_image_gpt_mini";
    "generate_image_dalle3"; "generate_image_dalle2" ].

(** [listToolsResponse.result?.tools || []] (line 132); the result is
    missing from a response that carries an error. *)
Definition tools_of (result : option ListToolsResult) : list Tool :=
  match result with
  | Some r => tools r
  | None => []
  end.

(** The loop of lines 137-141: the first expected tool that no listed
    tool is named after is thrown as an error; [None] when the loop runs
    to its end. *)
Fixpoint verify_expected (expected : list string) (listed : list Tool)
    : option Error :=
  match expected with
  | [] => None
  | expectedTool :: expected' =>
      if negb (existsb (λ t, String.eqb (name t) expectedTool) listed) then
        Some {| code := None; message := expectedTool +:+ " tool not found" |}
      else verify_expected expected' listed
  end.

End IntegrationTest.

(** * Properties *)

(** ** JavaScript values *)

Lemma truthy_nonempty_string (s : string) : s ≠ "" → truthy (VStr s) = true.
Proof.
  intros Hs. simpl. destruct (String.eqb_spec s ""); [contradiction | reflexivity].
Qed.


Lemma num_of_Z_1 : num_of_Z 1 = S754_finite false 4503599627370496 (-52).
Proof. reflexivity. Qed.

Lemma append_empty_r (s : string) : s +:+ "" = s.
Proof.
  induction s as [| c s IH]; [reflexivity |].
  change (String c (s +:+ "") = String c s). now rewrite IH.
Qed.

Lemma or_else_str_occurs (msg fallback before : string) :
  occurs_in msg (before +:+ or_else_str msg fallback).
Proof.
  unfold or_else_str. destruct (String.eqb_spec msg "") as [-> | _].
  - exists (before +:+ fallback), "". simpl. now rewrite append_empty_r.
  - exists before, "". now rewrite append_empty_r.
Qed.

(** ** The options object *)

(** The branch taken depends on the [model] argument alone. *)
Lemma build_options_cases (args : gmap string value) :
  let model := or_else (prop args "model") (VStr "dall-e-2") in
  (model = VStr "gpt-image-1" ∧
   get (build_options args) "model" = VStr "gpt-image-1" ∧
   keys (build_options args) = "model" :: spec_variant_fields GptImage1)
  ∨ (model = VStr "dall-e-3" ∧
     get (build_options args) "model" = VStr "dall-e-3" ∧
     keys (build_options args) = "model" :: spec_variant_fields DallE3)
  ∨ (model ≠ VStr "gpt-image-1" ∧ model ≠ VStr "dall-e-3" ∧
     get (build_options args) "model" = VStr "dall-e-2" ∧
     keys (build_options args) = "model" :: spec_variant_fields DallE2).
Proof.
  intros model. unfold build_options. fold model.
  destruct model as [| | b | x | s | l | l]; simpl;
    try (right; right; repeat split; congruence).
  destruct (String.eqb_spec s "gpt-image-1") as [-> | Hg].
  { left. repeat split. }
  destruct (String.eqb_spec s "dall-e-3") as [-> | Hd].
  { right; left. repeat split. }
  right; right. repeat split; congruence.
Qed.


(** ** The [tools/call] handler *)

Section HandlerFacts.

Variable GenerationResult : Type.
Variable generateImage : value → value → obj → GenerationResult + Error.
Variable success_text : GenerationResult → string + Error.

Let handle := call_tool GenerationResult generateImage success_text.

(** What a validated request does: three log lines, one provider call,
    and a returned result whatever the provider answers. *)
Lemma call_tool_validated (request : CallToolParams) (w : world) :
  validated request →
  let args := arguments request in
  let w1 := world_after_call args w in
  handle request w =
    match generateImage (prop args "prompt") (prop args "output")
                        (build_options args) with
    | inl result =>
        match success_text result with
        | inl text =>
            (Normal {| content := [ {| type := "text"; text := text |} ];
                       isError := None |}, w1)
        | inr error => (Normal (error_result error), world_after_catch error w1)
        end
    | inr error => (Normal (error_result error), world_after_catch error w1)
    end.
Proof.
  intros (Hname & Hprompt & Houtput) args w1.
  unfold handle, call_tool. fold args in Hprompt, Houtput |- *.
  rewrite Hname, Hprompt, Houtput. simpl.
  unfold try_catch, mbind, M_bind, console_error, await_generateImage. simpl.
  assert (Hw : {| stderr :=
                    ((stderr w ++
                      [[Text "Sending request to OpenAI with options:";
                        Json (build_options args)]]) ++
                     [[Text "Prompt:"; Val (prop args "prompt")]]) ++
                    [[Text "Output:"; Val (prop args "output")]];
                  invocations := invocations w ++
                    [ {| inv_prompt := prop args "prompt";
                         inv_output := prop args "output";
                         inv_options := build_options args |} ] |} = w1).
  { unfold w1, world_after_call, request_lines, invocation_of.
    f_equal. now rewrite <- !app_assoc. }
  rewrite Hw.
  destruct (generateImage _ _ _) as [result | error]; simpl; [| reflexivity].
  destruct (success_text result) as [text | error]; reflexivity.
Qed.

(** A validated request returns; nothing is thrown. *)
Lemma call_tool_validated_returns (request : CallToolParams) (w : world) :
  validated request →
  ∃ result line,
    handle request w =
      (Normal result,
       {| stderr := stderr w ++ request_lines (arguments request) ++ line;
          invocations := invocations w ++ [invocation_of (arguments request)] |}).
Proof.
  intros Hv. rewrite (call_tool_validated _ _ Hv).
  destruct (generateImage _ _ _) as [result | error].
  - destruct (success_text result) as [text | error].
    + eexists _, []. unfold world_after_call. now rewrite app_nil_r.
    + eexists _, [_]. unfold world_after_catch, world_after_call. simpl.
      now rewrite <- app_assoc.
  - eexists _, [_]. unfold world_after_catch, world_after_call. simpl.
    now rewrite <- app_assoc.
Qed.

(** The three guards, in source order. *)
Lemma call_tool_unknown (request : CallToolParams) (w : world) :
  tool_name request ≠ "generate_image" →
  handle request w =
    (Throw (McpError MethodNotFound ("Unknown tool: " +:+ tool_name request)), w).
Proof.
  intros Hname. unfold handle, call_tool.
  destruct (String.eqb_spec (tool_name request) "generate_image");
    [contradiction | reflexivity].
Qed.

Lemma call_tool_no_prompt (request : CallToolParams) (w : world) :
  tool_name request = "generate_image" →
  truthy (prop (arguments request) "prompt") = false →
  handle request w = (Throw (McpError InvalidParams "Prompt is required"), w).
Proof.
  intros Hname Hprompt. unfold handle, call_tool.
  now rewrite Hname, Hprompt.
Qed.

Lemma call_tool_no_output (request : CallToolParams) (w : world) :
  tool_name request = "generate_image" →
  truthy (prop (arguments request) "prompt") = true →
  truthy (prop (arguments request) "output") = false →
  handle request w =
    (Throw (McpError InvalidParams "Output file path is required"), w).
Proof.
  intros Hname Hprompt Houtput. unfold handle, call_tool.
  now rewrite Hname, Hprompt, Houtput.
Qed.

(** A request is validated or thrown back with the world untouched. *)
Lemma call_tool_guarded (request : CallToolParams) (w : world) :
  validated request ∨ ∃ e, handle request w = (Throw e, w).
Proof.
  destruct (decide (tool_name request = "generate_image")) as [Hname | Hname];
    [| right; eexists; now apply call_tool_unknown].
  destruct (truthy (prop (arguments request) "prompt")) eqn:Hprompt;
    [| right; eexists; now apply call_tool_no_prompt].
  destruct (truthy (prop (arguments request) "output")) eqn:Houtput;
    [| right; eexists; now apply call_tool_no_output].
  left. now repeat split.
Qed.

(** The provider is called at most once, and only with the options
    built from the request. *)
Lemma call_tool_invocations (request : CallToolParams) (w : world) :
  ∃ new,
    invocations (handle request w).2 = invocations w ++ new ∧
    (validated request → new = [invocation_of (arguments request)]) ∧
    (¬ validated request → new = []) ∧
    Forall (λ inv, inv_options inv = build_options (arguments request)) new.
Proof.
  destruct (call_tool_guarded request w) as [Hv | [e He]].
  - destruct (call_tool_validated_returns request w Hv) as (result & line & ->).
    exists [invocation_of (arguments request)]. simpl.
    repeat split; [tauto | by repeat constructor].
  - exists []. rewrite He. simpl. rewrite app_nil_r.
    repeat split; [| constructor].
    intros Hv. destruct (call_tool_validated_returns request w Hv)
      as (result & line & Heq).
    rewrite He in Heq. discriminate.
Qed.

(** C2: when the selected model is [dall-e-3], the options handed to
    the provider carry [n = 1] whatever the caller put in [n]: the
    options object has it, every provider call of the handler has it,
    and a validated request makes exactly that one call. *)
Theorem dalle3_n_forced_to_1 (request : CallToolParams) (w : world) :
  prop (arguments request) "model" = VStr "dall-e-3" →
  get (build_options (arguments request)) "n" = VNum (num_of_Z 1) ∧
  get (build_options (arguments request)) "model" = VStr "dall-e-3" ∧
  ∃ new,
    invocations (handle request w).2 = invocations w ++ new ∧
    Forall (λ inv, get (inv_options inv) "n" = VNum (num_of_Z 1)) new ∧
    (validated request → new = [invocation_of (arguments request)]).
Proof.
  intros Hmodel.
  assert (Hn : get (build_options (arguments request)) "n" = VNum (num_of_Z 1) ∧
               get (build_options (arguments request)) "model" = VStr "dall-e-3").
  { unfold build_options. rewrite Hmodel. split; reflexivity. }
  destruct Hn as [Hn Hm]. split; [exact Hn |]. split; [exact Hm |].
  destruct (call_tool_invocations request w) as (new & Hnew & Hone & _ & Hall).
  exists new. repeat split; [exact Hnew | | exact Hone].
  eapply Forall_impl; [exact Hall |]. intros inv ->. exact Hn.
Qed.

(** C3: when the provider rejects a validated request with [error], the
    handler returns (it does not throw) a result with [isError: true]
    whose text contains the error's message. *)
Theorem provider_error_becomes_tool_error
    (request : CallToolParams) (w : world) (error : Error) :
  validated request →
  generateImage (prop (arguments request) "prompt")
                (prop (arguments request) "output")
                (build_options (arguments request)) = inr error →
  ∃ t,
    handle request w =
      (Normal {| content := [ {| type := "text"; text := t |} ];
                 isError := Some true |},
       world_after_catch error (world_after_call (arguments request) w)) ∧
    t = "Error generating image: " +:+ or_else_str (message error) "Unknown error" ∧
    occurs_in (message error) t.
Proof.
  intros Hv Hreject. eexists. split; [| split; [reflexivity |]].
  - rewrite (call_tool_validated _ _ Hv). simpl. now rewrite Hreject.
  - apply or_else_str_occurs.
Qed.



(** C6: a call naming any other tool throws a [MethodNotFound] error
    and leaves the world as it was: the provider is not called. *)
Theorem unknown_tool_method_not_found (request : CallToolParams) (w : world) :
  tool_name request ≠ "generate_image" →
  ∃ e,
    handle request w = (Throw e, w) ∧
    e = McpError MethodNotFound ("Unknown tool: " +:+ tool_name request) ∧
    code e = Some MethodNotFound ∧
    invocations (handle request w).2 = invocations w.
Proof.
  intros Hname. eexists. rewrite (call_tool_unknown _ _ Hname).
  repeat split.
Qed.

(** C7: without a [model] argument the options carry
    [model = dall-e-2]; and a call with only prompt, output and one of
    the three models returns (no parameter error) after one provider
    call with that model's options. *)
Theorem model_default_and_minimal_calls :
  (∀ request w,
     arguments request !! "model" = None →
     get (build_options (arguments request)) "model" = VStr "dall-e-2" ∧
     build_options (arguments request) = dalle2_options (arguments request) ∧
     (validated request →
      ∃ result line,
        handle request w =
          (Normal result,
           {| stderr := stderr w ++ request_lines (arguments request) ++ line;
              invocations :=
                invocations w ++ [invocation_of (arguments request)] |}))) ∧
  (∀ (m : Model) (p o : value) (w : world),
     truthy p = true → truthy o = true →
     ∃ result line options,
       handle (minimal_call p o m) w =
         (Normal result,
          {| stderr :=
               stderr w ++ request_lines (arguments (minimal_call p o m)) ++ line;
             invocations :=
               invocations w ++
               [ {| inv_prompt := p; inv_output := o; inv_options := options |} ] |}) ∧
       get options "model" = VStr (model_id m) ∧
       keys options = "model" :: spec_variant_fields m).
Proof.
  split.
  - intros request w Hmodel.
    assert (Hopt : build_options (arguments request)
                   = dalle2_options (arguments request)).
    { assert (Hundef : prop (arguments request) "model" = VUndefined)
        by (unfold prop; now rewrite Hmodel).
      unfold build_options. rewrite Hundef. reflexivity. }
    split; [now rewrite Hopt |]. split; [exact Hopt |].
    apply call_tool_validated_returns.
  - intros m p o w Hp Ho.
    assert (Hv : validated (minimal_call p o m)).
    { repeat split; assumption. }
    destruct (call_tool_validated_returns _ w Hv) as (result & line & ->).
    exists result, line, (build_options (arguments (minimal_call p o m))).
    split; [reflexivity |]. destruct m; split; reflexivity.
Qed.

(** C10: a validated request whose [model] is a string other than
    [gpt-image-1] and [dall-e-3] is not rejected: the provider is called
    once with the [dall-e-2] options and the handler returns. *)
Theorem unlisted_model_routed_as_dalle2
    (request : CallToolParams) (w : world) (s : string) :
  validated request →
  prop (arguments request) "model" = VStr s →
  s ≠ "gpt-image-1" → s ≠ "dall-e-3" →
  build_options (arguments request) = dalle2_options (arguments request) ∧
  get (build_options (arguments request)) "model" = VStr "dall-e-2" ∧
  ∃ result line,
    handle request w =
      (Normal result,
       {| stderr := stderr w ++ request_lines (arguments request) ++ line;
          invocations :=
            invocations w ++
            [ {| inv_prompt := prop (arguments request) "prompt";
                 inv_output := prop (arguments request) "output";
                 inv_options := dalle2_options (arguments request) |} ] |}).
Proof.
  intros Hv Hmodel Hg Hd.
  assert (Hopt : build_options (arguments request)
                 = dalle2_options (arguments request)).
  { unfold build_options. rewrite Hmodel. unfold or_else, strict_eq_str.
    destruct (truthy (VStr s)); simpl.
    - destruct (String.eqb_spec s "gpt-image-1"); [contradiction |].
      destruct (String.eqb_spec s "dall-e-3"); [contradiction |]. reflexivity.
    - reflexivity. }
  split; [exact Hopt |]. split; [now rewrite Hopt |].
  destruct (call_tool_validated_returns _ w Hv) as (result & line & ->).
  exists result, line. unfold invocation_of. now rewrite Hopt.
Qed.

End HandlerFacts.

(** ** The tool descriptor *)

(** C1: [tools/list] answers with exactly one tool, named
    [generate_image], whose schema requires exactly [prompt] and [output];
    the world is returned as it was given. *)
Theorem list_tools_single_tool (w : world) :
  ∃ tool,
    list_tools w = (Normal {| tools := [tool] |}, w) ∧
    name tool = "generate_image" ∧
    required (inputSchema tool) = ["prompt"; "output"] ∧
    ∀ k, k ∈ required (inputSchema tool) ↔ k = "prompt" ∨ k = "output".
Proof.
  exists generate_image_tool.
  split; [reflexivity |]. split; [reflexivity |]. split; [reflexivity |].
  intros k. simpl. rewrite !list_elem_of_In. simpl. intuition congruence.
Qed.

(** Every field of every options variant is a property of the schema. *)
Lemma schema_covers_options (args : gmap string value) (k : string) :
  k ∈ keys (build_options args) →
  k ∈ map fst (properties (inputSchema generate_image_tool)).
Proof.
  destruct (build_options_cases args)
    as [(_ & _ & ->) | [(_ & _ & ->) | (_ & _ & _ & ->)]];
    intros Hk%list_elem_of_In; apply list_elem_of_In;
    simpl in *; intuition congruence.
Qed.

(** ** Start-up *)

(** C9, as amended: with the key unset or empty the process exits with
    status 1 after the diagnostic; with a non-empty key that does not
    start with [sk-] it logs the warning and serves with that key; with a
    key that starts with [sk-] it serves without a warning. *)
Theorem startup_credential_check (env : option string) :
  (env = None ∨ env = Some "" →
   startup env = (missing_key_diagnostic, Exited 1)) ∧
  (∀ key, env = Some key → key ≠ "" → startsWith key "sk-" = false →
   startup env =
     (key_format_warning ++ ["Image Generation MCP server running on stdio"],
      Serving key)) ∧
  (∀ key, env = Some key → startsWith key "sk-" = true →
   startup env = (["Image Generation MCP server running on stdio"], Serving key)).
Proof.
  repeat split.
  - intros [-> | ->]; reflexivity.
  - intros key -> Hkey Hprefix. unfold startup, env_value.
    rewrite (truthy_nonempty_string key Hkey). simpl. now rewrite Hprefix.
  - intros key -> Hprefix. unfold startup, env_value.
    assert (Hkey : key ≠ "") by (intros ->; discriminate).
    rewrite (truthy_nonempty_string key Hkey). simpl. now rewrite Hprefix.
Qed.

(** ** Output paths of the provider adapter *)

Module ProviderFacts.
Import Provider.

Lemma length_append (s t : string) :
  String.length (s +:+ t) = String.length s + String.length t.
Proof.
  induction s as [| c s IH]; [reflexivity |].
  change (S (String.length (s +:+ t)) = S (String.length s + String.length t)).
  now rewrite IH.
Qed.

Lemma append_cancel_r (s1 s2 t : string) : s1 +:+ t = s2 +:+ t → s1 = s2.
Proof.
  revert s2. induction s1 as [| c s1 IH]; intros [| c' s2] Heq.
  - reflexivity.
  - apply (f_equal String.length) in Heq.
    rewrite !length_append in Heq. simpl in Heq. lia.
  - apply (f_equal String.length) in Heq.
    rewrite !length_append in Heq. simpl in Heq. lia.
  - change (String c (s1 +:+ t) = String c' (s2 +:+ t)) in Heq.
    injection Heq as -> Heq. f_equal. now apply IH.
Qed.

Lemma decimal_inj (i j : nat) : decimal i = decimal j → i = j.
Proof.
  unfold decimal. intros Heq. apply Unsigned.to_uint_inj.
  apply (f_equal NilEmpty.uint_of_string) in Heq.
  rewrite !NilEmpty.usu in Heq. congruence.
Qed.

(** Two images of one call never share a numbered path. *)
Lemma numbered_path_inj (outputPath : string) (i j : nat) :
  numbered_path outputPath i = numbered_path outputPath j → i = j.
Proof.
  unfold numbered_path.
  destruct (split_extension _ _) as [[stem ext] |]; intros Heq.
  - apply String.app_inj, String.app_inj, append_cancel_r in Heq.
    now apply decimal_inj.
  - apply String.app_inj, String.app_inj in Heq. now apply decimal_inj.
Qed.

Lemma file_paths_distinct (outputPath : string) (n i len : nat) :
  1 < n → NoDup (map (file_path outputPath n) (seq i len)).
Proof.
  intros Hn. unfold file_path.
  destruct (Nat.ltb_spec 1 n) as [_ | Hle]; [| lia].
  revert i. induction len as [| len IH]; intros i; simpl; constructor.
  - intros Hin%list_elem_of_In.
    apply in_map_iff in Hin as (j & Heq & Hj%in_seq).
    apply numbered_path_inj in Heq. lia.
  - apply IH.
Qed.

Section AdapterFacts.

Variable images_generate :
  string → nat → (nat → GeneratedImage) * value + string.
Variable fetch : string → string + string.
Variable decode : string → string.
Variable write_file : string → string → option string.

Let persist := persist fetch decode write_file.
Let generateImage := generateImage images_generate fetch decode write_file.

(** A successful run saves one file per image, at the computed paths
    in order. *)
Lemma persist_paths (outputPath : string) (n : nat)
    (images : list GeneratedImage) (i : nat) (saved : list SavedFile) :
  persist outputPath n i images = inl saved →
  map path saved = map (file_path outputPath n) (seq i (length images)).
Proof.
  unfold persist.
  revert i saved. induction images as [| img images IH]; intros i saved; simpl.
  - intros [= <-]. reflexivity.
  - destruct (image_bytes fetch decode img) as [bytes | e]; [| discriminate].
    destruct (write_file _ bytes); [discriminate |].
    destruct (Provider.persist fetch decode write_file outputPath n (S i) images)
      as [saved' | e] eqn:Hrest; [| discriminate].
    intros [= <-]. simpl. f_equal. now apply IH.
Qed.

Lemma generateImage_paths (prompt outputPath : string) (n : nat)
    (result : GenerationResult) :
  generateImage prompt outputPath n = inl result →
  map path (savedFiles result) = map (file_path outputPath n) (seq 1 n).
Proof.
  unfold generateImage, Provider.generateImage.
  destruct (images_generate prompt n) as [[images metadata] | reason];
    [| discriminate].
  destruct (Provider.persist fetch decode write_file outputPath n 1 _)
    as [saved | e] eqn:Hsaved; [| discriminate].
  intros [= <-]. simpl. apply persist_paths in Hsaved.
  now rewrite length_map, length_seq in Hsaved.
Qed.

(** C8: a successful non-streaming call for three images with output
    path [out.png] saves exactly three files, [out-1.png], [out-2.png]
    and [out-3.png], pairwise distinct. *)
Theorem three_images_numbered_paths (prompt : string) (result : GenerationResult) :
  generateImage prompt "out.png" 3 = inl result →
  map path (savedFiles result) = ["out-1.png"; "out-2.png"; "out-3.png"] ∧
  length (savedFiles result) = 3 ∧
  NoDup (map path (savedFiles result)).
Proof.
  intros Hok. pose proof (generateImage_paths _ _ _ _ Hok) as Hpaths.
  split; [exact Hpaths |]. split.
  - apply (f_equal (@length string)) in Hpaths.
    now rewrite length_map in Hpaths.
  - rewrite Hpaths. apply file_paths_distinct. lia.
Qed.

End AdapterFacts.

End ProviderFacts.

(** ** The statements at sample inputs *)

Lemma dalle3_n_forced_to_1_witness :
  prop (arguments Sample.dalle3_n5) "n" = VNum (num_of_Z 5) ∧
  get (build_options (arguments Sample.dalle3_n5)) "n" = VNum (num_of_Z 1) ∧
  invocations
    (call_tool unit Sample.resolving Sample.plain_text
       Sample.dalle3_n5 Sample.empty_world).2
  = [invocation_of (arguments Sample.dalle3_n5)].
Proof.
  destruct (dalle3_n_forced_to_1 unit Sample.resolving Sample.plain_text
              Sample.dalle3_n5 Sample.empty_world)
    as (Hn & _ & new & Hnew & _ & Hone); [reflexivity |].
  split; [reflexivity |]. split; [exact Hn |].
  rewrite Hnew, Hone; [reflexivity |]. repeat split; reflexivity.
Defined.

Lemma provider_error_becomes_tool_error_witness :
  ∃ t,
    call_tool unit Sample.rejecting Sample.plain_text
      Sample.dalle3_n5 Sample.empty_world
    = (Normal {| content := [ {| type := "text"; text := t |} ];
                 isError := Some true |},
       world_after_catch
         {| code := None; message := "401 Incorrect API key provided" |}
         (world_after_call (arguments Sample.dalle3_n5) Sample.empty_world)) ∧
    t = "Error generating image: 401 Incorrect API key provided".
Proof.
  destruct (provider_error_becomes_tool_error unit Sample.rejecting
              Sample.plain_text Sample.dalle3_n5 Sample.empty_world
              {| code := None; message := "401 Incorrect API key provided" |})
    as (t & Hrun & Ht & _).
  - repeat split; reflexivity.
  - reflexivity.
  - exists t. split; [exact Hrun | exact Ht].
Defined.



Lemma unknown_tool_method_not_found_witness :
  call_tool unit Sample.resolving Sample.plain_text
    Sample.unknown_tool Sample.empty_world
  = (Throw (McpError MethodNotFound "Unknown tool: generate_image_gpt"),
     Sample.empty_world).
Proof.
  destruct (unknown_tool_method_not_found unit Sample.resolving
              Sample.plain_text Sample.unknown_tool Sample.empty_world)
    as (e & Hrun & -> & _).
  - discriminate.
  - exact Hrun.
Defined.

Lemma model_default_and_minimal_calls_witness :
  get (build_options (arguments Sample.unknown_tool)) "model" = VStr "dall-e-2" ∧
  ∃ result line options,
    call_tool unit Sample.resolving Sample.plain_text
      (minimal_call (VStr "a cat") (VStr "cat.png") GptImage1) Sample.empty_world
    = (Normal result,
       {| stderr :=
            stderr Sample.empty_world ++
            request_lines
              (arguments (minimal_call (VStr "a cat") (VStr "cat.png") GptImage1)) ++
            line;
          invocations :=
            invocations Sample.empty_world ++
            [ {| inv_prompt := VStr "a cat"; inv_output := VStr "cat.png";
                 inv_options := options |} ] |}) ∧
    get options "model" = VStr "gpt-image-1" ∧
    keys options = "model" :: spec_variant_fields GptImage1.
Proof.
  destruct (model_default_and_minimal_calls unit Sample.resolving
              Sample.plain_text) as [Hdefault Hminimal].
  split.
  - apply (Hdefault Sample.unknown_tool Sample.empty_world). reflexivity.
  - apply (Hminimal GptImage1 (VStr "a cat") (VStr "cat.png") Sample.empty_world);
      reflexivity.
Defined.

Lemma unlisted_model_routed_as_dalle2_witness :
  prop (arguments Sample.unlisted_model) "model" = VStr "gpt-image-1-mini" ∧
  get (build_options (arguments Sample.unlisted_model)) "model" = VStr "dall-e-2" ∧
  get (build_options (arguments Sample.unlisted_model)) "quality" = VUndefined.
Proof.
  destruct (unlisted_model_routed_as_dalle2 unit Sample.resolving
              Sample.plain_text Sample.unlisted_model Sample.empty_world
              "gpt-image-1-mini")
    as (Hopt & Hmodel & _).
  - repeat split; reflexivity.
  - reflexivity.
  - discriminate.
  - discriminate.
  - split; [reflexivity |]. split; [exact Hmodel |]. now rewrite Hopt.
Defined.

Lemma three_images_numbered_paths_witness :
  Provider.generateImage Sample.inline_upstream Sample.no_fetch
    Sample.identity_decode Sample.always_written "a cat" "out.png" 3
  = inl Sample.three_saved ∧
  map Provider.path (Provider.savedFiles Sample.three_saved)
  = ["out-1.png"; "out-2.png"; "out-3.png"] ∧
  NoDup (map Provider.path (Provider.savedFiles Sample.three_saved)).
Proof.
  assert (Hok : Provider.generateImage Sample.inline_upstream Sample.no_fetch
                  Sample.identity_decode Sample.always_written
                  "a cat" "out.png" 3 = inl Sample.three_saved)
    by reflexivity.
  split; [exact Hok |].
  destruct (ProviderFacts.three_images_numbered_paths _ _ _ _ _ _ Hok)
    as (Hpaths & _ & Hdistinct).
  split; [exact Hpaths | exact Hdistinct].
Defined.

Lemma startup_credential_check_witness :
  startup None = (missing_key_diagnostic, Exited 1) ∧
  startup (Some "test-api-key")
  = (key_format_warning ++ ["Image Generation MCP server running on stdio"],
     Serving "test-api-key").
Proof.
  split.
  - apply (startup_credential_check None). left. reflexivity.
  - apply (startup_credential_check (Some "test-api-key"));
      [reflexivity | discriminate | reflexivity].
Defined.

(** The claim of C9 as written fails on the empty key: it is present in
    the environment, does not start with [sk-], and the process exits. *)
Lemma empty_key_is_fatal :
  startsWith "" "sk-" = false ∧
  startup (Some "") = (missing_key_diagnostic, Exited 1) ∧
  ¬ (∀ key, startsWith key "sk-" = false →
       ∃ lines, startup (Some key) = (lines, Serving key)).
Proof.
  split; [reflexivity |]. split; [reflexivity |].
  intros Hclaim. destruct (Hclaim "" eq_refl) as [lines Hrun]. discriminate.
Qed.

(** * Further properties of the server *)

(** ** Every way a [tools/call] can end *)

Section HandlerOutcomes.

Variable GenerationResult : Type.
Variable generateImage : value → value → obj → GenerationResult + Error.
Variable success_text : GenerationResult → string + Error.

Let handle := call_tool GenerationResult generateImage success_text.

(** The four paths through the handler, each with what it leaves behind. *)
Lemma call_tool_paths (request : CallToolParams) (w : world) :
  let args := arguments request in
  (tool_name request ≠ "generate_image" ∧
   handle request w =
     (Throw (McpError MethodNotFound ("Unknown tool: " +:+ tool_name request)), w))
  ∨ (tool_name request = "generate_image" ∧
     truthy (prop args "prompt") = false ∧
     handle request w = (Throw (McpError InvalidParams "Prompt is required"), w))
  ∨ (tool_name request = "generate_image" ∧
     truthy (prop args "prompt") = true ∧
     truthy (prop args "output") = false ∧
     handle request w =
       (Throw (McpError InvalidParams "Output file path is required"), w))
  ∨ (validated request ∧
     handle request w =
       match generateImage (prop args "prompt") (prop args "output")
                           (build_options args) with
       | inl result =>
           match success_text result with
           | inl text =>
               (Normal {| content := [ {| type := "text"; text := text |} ];
                          isError := None |}, world_after_call args w)
           | inr error =>
               (Normal (error_result error),
                world_after_catch error (world_after_call args w))
           end
       | inr error =>
           (Normal (error_result error),
            world_after_catch error (world_after_call args w))
       end).
Proof.
  intros args.
  destruct (decide (tool_name request = "generate_image")) as [Hname | Hname];
    [| left; split; [exact Hname | now apply call_tool_unknown]].
  destruct (truthy (prop args "prompt")) eqn:Hprompt;
    [| right; left; repeat split; try assumption; now apply call_tool_no_prompt].
  destruct (truthy (prop args "output")) eqn:Houtput;
    [| right; right; left; repeat split; try assumption;
       now apply call_tool_no_output].
  right; right; right.
  assert (Hv : validated request) by (repeat split; assumption).
  split; [exact Hv |]. exact (call_tool_validated _ _ _ request w Hv).
Qed.



(** X3: a returned result is flagged as an error exactly when the
    provider rejected the call or serialising its result threw; its text
    is then the error line.  Otherwise it has no [isError] at all and its
    text is the serialised result.  [isError: false] is never returned. *)
Theorem is_error_iff_failure
    (request : CallToolParams) (w w' : world) (result : CallToolResult) :
  handle request w = (Normal result, w') →
  let call := generateImage (prop (arguments request) "prompt")
                            (prop (arguments request) "output")
                            (build_options (arguments request)) in
  (isError result = Some true ↔
     ∃ error, (call = inr error ∨
               ∃ r, call = inl r ∧ success_text r = inr error) ∧
              result = error_result error) ∧
  (isError result = None ↔
     ∃ r t, call = inl r ∧ success_text r = inl t ∧
            content result = [ {| type := "text"; text := t |} ]) ∧
  isError result ≠ Some false.
Proof.
  intros Hrun call.
  destruct (call_tool_paths request w)
    as [(Hn & Heq) | [(Hn & Hp & Heq) | [(Hn & Hp & Ho & Heq) | (Hv & Heq)]]];
    rewrite Heq in Hrun; try discriminate.
  fold call in Hrun. destruct call as [r | error] eqn:Hcall.
  - destruct (success_text r) as [t | error] eqn:Htext;
      injection Hrun as <- <-; simpl.
    + split; [| split; [| discriminate]].
      * split; [discriminate |]. intros (error & _ & Hres). discriminate.
      * split; [| reflexivity]. intros _. now exists r, t.
    + split; [| split; [| discriminate]].
      * split; [| reflexivity]. intros _. exists error. split; [| reflexivity].
        right. now exists r.
      * split; [discriminate |]. intros (r' & t & [= <-] & Ht & _). congruence.
  - injection Hrun as <- <-; simpl.
    split; [| split; [| discriminate]].
    + split; [| reflexivity]. intros _. exists error. split; [now left | reflexivity].
    + split; [discriminate |]. intros (r & t & Hr & _). discriminate.
Qed.

(** X4: the handler only ever appends to stderr and to the provider's
    call list.  It calls the provider at most once, with the prompt and
    output exactly as received, and it logs nothing unless it makes that
    call: three lines before it, and a fourth when the call fails. *)
Theorem handler_extends_world (request : CallToolParams) (w : world) :
  ∃ lines calls,
    stderr (handle request w).2 = stderr w ++ lines ∧
    invocations (handle request w).2 = invocations w ++ calls ∧
    ((calls = [] ∧ lines = [] ∧ ¬ validated request)
     ∨ (calls = [invocation_of (arguments request)] ∧ validated request ∧
        ∃ extra, lines = request_lines (arguments request) ++ extra ∧
                 length extra ≤ 1 ∧
                 (extra = [] ↔ ∃ r, (handle request w).1 = Normal r ∧
                                     isError r = None))).
Proof.
  destruct (call_tool_paths request w)
    as [(Hn & Heq) | [(Hn & Hp & Heq) | [(Hn & Hp & Ho & Heq) | (Hv & Heq)]]];
    rewrite Heq.
  1-3: exists [], []; simpl;
       (split; [symmetry; apply app_nil_r |]);
       (split; [symmetry; apply app_nil_r |]); left;
       (split; [reflexivity |]); (split; [reflexivity |]);
       intros (Hn' & Hp' & Ho'); congruence.
  destruct (generateImage _ _ _) as [result | error].
  - destruct (success_text result) as [t | error].
    + exists (request_lines (arguments request)), [invocation_of (arguments request)].
      simpl. repeat (split; [reflexivity |]). right.
      repeat (split; [assumption || reflexivity |]).
      exists []. rewrite ?app_nil_r. split; [reflexivity |]. split; [simpl; lia |].
      split; [| reflexivity]. intros _. eexists. split; reflexivity.
    + eexists (request_lines (arguments request) ++ [_]),
              [invocation_of (arguments request)].
      simpl. split; [now rewrite <- app_assoc |]. split; [reflexivity |]. right.
      repeat (split; [assumption || reflexivity |]).
      eexists [_]. split; [reflexivity |]. split; [simpl; lia |].
      split; [discriminate |]. intros (r & [= <-] & Hr). discriminate.
  - eexists (request_lines (arguments request) ++ [_]),
            [invocation_of (arguments request)].
    simpl. split; [now rewrite <- app_assoc |]. split; [reflexivity |]. right.
    repeat (split; [assumption || reflexivity |]).
    eexists [_]. split; [reflexivity |]. split; [simpl; lia |].
    split; [discriminate |]. intros (r & [= <-] & Hr). discriminate.
Qed.

End HandlerOutcomes.

(** ** The options object, field by field *)

(** X5: nothing is validated or converted on the way: apart from the
    [model] tag and the forced [n] of [dall-e-3], every field of the options
    holds exactly what the caller put under that name, [undefined] when the
    caller put nothing. *)
Theorem options_pass_through (args : gmap string value) (k : string) :
  k ∈ keys (build_options args) →
  k ≠ "model" →
  (get (build_options args) "model" = VStr "dall-e-3" → k ≠ "n") →
  get (build_options args) k = prop args k.
Proof.
  unfold build_options.
  repeat case_match; intros Hk%list_elem_of_In Hmodel Hn; simpl in Hk;
    repeat (destruct Hk as [<- | Hk]; [first [reflexivity | congruence
            | exfalso; now apply Hn] |]);
    contradiction.
Qed.

(** X6: the [model] tag of the options is always one of the schema's
    three enum values, and it is the string the caller asked for exactly
    when that string is in the enum. *)
Theorem model_tag_matches_enum (args : gmap string value) :
  (∃ tag, get (build_options args) "model" = VStr tag ∧
          tag ∈ enum_of generate_image_tool "model") ∧
  ∀ s, prop args "model" = VStr s →
       (get (build_options args) "model" = VStr s ↔
        s ∈ enum_of generate_image_tool "model").
Proof.
  assert (Henum : ∀ s, s ∈ enum_of generate_image_tool "model" ↔
                       s = "gpt-image-1" ∨ s = "dall-e-3" ∨ s = "dall-e-2").
  { intros s. rewrite list_elem_of_In.
    change (enum_of generate_image_tool "model")
      with ["gpt-image-1"; "dall-e-3"; "dall-e-2"].
    simpl. intuition congruence. }
  split.
  - destruct (build_options_cases args)
      as [(_ & -> & _) | [(_ & -> & _) | (_ & _ & -> & _)]];
      eexists; (split; [reflexivity |]); apply Henum; tauto.
  - intros s Hs. rewrite Henum.
    destruct (build_options_cases args)
      as [(Hm & -> & _) | [(Hm & -> & _) | (Hg & Hd & -> & _)]];
      rewrite Hs in *; unfold or_else in *.
    + destruct (truthy (VStr s)); [| discriminate]. injection Hm as ->. tauto.
    + destruct (truthy (VStr s)); [| discriminate]. injection Hm as ->. tauto.
    + split; [intros [= <-]; tauto |].
      destruct (truthy (VStr s)) eqn:Ht.
      * intros [-> | [-> | ->]]; [contradiction | contradiction | reflexivity].
      * simpl in Ht. destruct (String.eqb_spec s ""); [subst | discriminate].
        intros [? | [? | ?]]; discriminate.
Qed.

(** X7: a [model] argument that is not a string (a number, a boolean,
    [null], an array, an object, or nothing at all) is not rejected: the
    [dall-e-2] options are built. *)
Theorem non_string_model_is_dalle2 (args : gmap string value) :
  (∀ s, prop args "model" ≠ VStr s) →
  build_options args = dalle2_options args.
Proof.
  intros Hns. unfold build_options, or_else.
  destruct (prop args "model") as [| | b | x | s | l | l];
    try (now destruct (truthy _)).
  exfalso. now apply (Hns s).
Qed.

(** X8: the handler's fallback for a falsy [model] ([undefined], [null],
    [false], [0], the empty string) is the [default] the schema declares
    for [model]. *)
Theorem falsy_model_gets_schema_default (args : gmap string value) :
  truthy (prop args "model") = false →
  default_of generate_image_tool "model"
  = Some (get (build_options args) "model").
Proof.
  intros Hfalsy. unfold build_options, or_else. rewrite Hfalsy. reflexivity.
Qed.

(** X9: the schema and the handler agree on the field names: every
    field of every options object is a property of the schema, and every
    property of the schema other than [prompt] and [output] is a field of
    the options of at least one model. *)
Theorem schema_and_options_agree :
  (∀ (args : gmap string value) (k : string),
     k ∈ keys (build_options args) →
     is_Some (property_of generate_image_tool k)) ∧
  (∀ k, is_Some (property_of generate_image_tool k) →
        k ≠ "prompt" → k ≠ "output" →
        ∃ m, k ∈ keys (build_options {[ "model" := VStr (model_id m) ]})).
Proof.
  split.
  - intros args k.
    destruct (build_options_cases args)
      as [(_ & _ & ->) | [(_ & _ & ->) | (_ & _ & _ & ->)]];
      intros Hk%list_elem_of_In; simpl in Hk;
      repeat (destruct Hk as [<- | Hk]; [by eexists |]); contradiction.
  - intros k [p Hp] Hprompt Houtput.
    unfold property_of in Hp. apply fmap_Some in Hp as ([k' p'] & Hfind & _).
    apply find_some in Hfind as [Hin Hk]. simpl in Hk.
    apply String.eqb_eq in Hk. subst k'. apply (in_map fst) in Hin.
    simpl in Hin.
    repeat (destruct Hin as [<- | Hin];
            [first [ congruence
                   | exists DallE2; apply list_elem_of_In; vm_compute; tauto
                   | exists DallE3; apply list_elem_of_In; vm_compute; tauto
                   | exists GptImage1; apply list_elem_of_In; vm_compute; tauto ] |]).
    contradiction.
Qed.

(** ** Start-up, read backwards *)

(** X10: the only exit at start-up is the one with status 1, taken only
    when the key is unset or empty, after the diagnostic and nothing else;
    and a process that serves holds the key exactly as the environment gave
    it, having warned exactly when the key does not start with [sk-]. *)
Theorem startup_inversion (env : option string) (lines : list string) :
  (∀ status, startup env = (lines, Exited status) →
     status = 1%Z ∧ lines = missing_key_diagnostic ∧
     (env = None ∨ env = Some "")) ∧
  (∀ key, startup env = (lines, Serving key) →
     env = Some key ∧ key ≠ "" ∧
     ((startsWith key "sk-" = true ∧
       lines = ["Image Generation MCP server running on stdio"])
      ∨ (startsWith key "sk-" = false ∧
         lines = key_format_warning ++
                 ["Image Generation MCP server running on stdio"]))).
Proof.
  unfold startup. destruct env as [key' |]; simpl.
  - destruct (String.eqb_spec key' "") as [-> | Hkey]; simpl; split.
    + intros status [= <- <-]. repeat split. now right.
    + intros key [=].
    + intros status [=].
    + intros key. destruct (startsWith key' "sk-") eqn:Hprefix; simpl;
        intros [= <- <-]; (split; [reflexivity |]); (split; [exact Hkey |]).
      * now left.
      * now right.
  - split.
    + intros status [= <- <-]. repeat split. now left.
    + intros key [=].
Qed.

(** ** The integration test *)

Module IntegrationTestFacts.
Import IntegrationTest.

Lemma increment_exact (c : Z) : (c < 2 ^ 53)%Z → increment c = (c + 1)%Z.
Proof.
  intros Hc. unfold increment. destruct (Z.ltb_spec c (2 ^ 53)); [reflexivity | lia].
Qed.

(** X11: requests created one after the other carry consecutive ids
    starting at the counter, hence pairwise distinct ones, and leave the
    counter just past the last id; methods and params are kept in order.
    This holds while the counter stays within the exact integers. *)
Theorem request_ids_consecutive (calls : list (string * value)) (c : Z) :
  (1 ≤ c)%Z →
  (c + Z.of_nat (length calls) ≤ 2 ^ 53)%Z →
  map id (create_in_turn calls c).1 = seqZ c (Z.of_nat (length calls)) ∧
  NoDup (map id (create_in_turn calls c).1) ∧
  (create_in_turn calls c).2 = (c + Z.of_nat (length calls))%Z ∧
  map (λ r, (method r, params r)) (create_in_turn calls c).1 = calls.
Proof.
  intros _ Hbound.
  assert (Hall : map id (create_in_turn calls c).1
                 = seqZ c (Z.of_nat (length calls)) ∧
                 (create_in_turn calls c).2 = (c + Z.of_nat (length calls))%Z ∧
                 map (λ r, (method r, params r)) (create_in_turn calls c).1 = calls).
  { revert c Hbound. induction calls as [| [m p] calls IH]; intros c Hbound.
    - simpl. repeat split. lia.
    - simpl length in *. simpl create_in_turn.
      rewrite increment_exact by lia.
      destruct (create_in_turn calls (c + 1)) as [requests c'] eqn:Hrest.
      destruct (IH (c + 1)%Z) as (Hids & Hc & Hcalls); [lia |].
      rewrite Hrest in Hids, Hc, Hcalls. simpl in *.
      rewrite seqZ_cons by lia. repeat split.
      + f_equal. rewrite Hids. f_equal; lia.
      + lia.
      + now rewrite Hcalls. }
  destruct Hall as (Hids & Hc & Hcalls).
  repeat split; try assumption. rewrite Hids. apply NoDup_seqZ.
Qed.

(** X12: the tool check of the test passes exactly when every expected
    name is the name of a listed tool; otherwise the error it throws names
    the first expected tool that is not listed. *)
Theorem verify_expected_first_missing (expected : list string) (listed : list Tool) :
  (verify_expected expected listed = None ↔
   ∀ e, e ∈ expected → ∃ t, t ∈ listed ∧ name t = e) ∧
  (∀ err, verify_expected expected listed = Some err →
     ∃ before missing after,
       expected = before ++ missing :: after ∧
       (∀ e, e ∈ before → ∃ t, t ∈ listed ∧ name t = e) ∧
       (∀ t, t ∈ listed → name t ≠ missing) ∧
       err = {| code := None; message := missing +:+ " tool not found" |}).
Proof.
  assert (Hsome : ∀ e, existsb (λ t, String.eqb (name t) e) listed = true ↔
                       ∃ t, t ∈ listed ∧ name t = e).
  { intros e. rewrite existsb_exists. split; intros (t & Ht & Hn); exists t.
    - split; [now apply list_elem_of_In | now apply String.eqb_eq].
    - split; [now apply list_elem_of_In | now apply String.eqb_eq]. }
  induction expected as [| e expected [IHnone IHsome]]; simpl.
  - split; [split; [intros _ e' He'; inversion He' | reflexivity] |].
    intros err [=].
  - destruct (existsb _ listed) eqn:Hex; simpl.
    + apply Hsome in Hex. split.
      * rewrite IHnone. split.
        -- intros Hall e' [-> | He']%elem_of_cons; [exact Hex | now apply Hall].
        -- intros Hall e' He'. apply Hall. now right.
      * intros err Herr.
        destruct (IHsome err Herr) as (before & missing & after & -> & Hb & Hm & ->).
        exists (e :: before), missing, after. repeat split; try assumption.
        intros e' [-> | He']%elem_of_cons; [exact Hex | now apply Hb].
    + split.
      * split; [discriminate |]. intros Hall.
        destruct (Hall e) as (t & Ht & Hn); [now left |].
        assert (Htrue : existsb (λ t, String.eqb (name t) e) listed = true)
          by (apply Hsome; eauto).
        congruence.
      * intros err [= <-]. exists [], e, expected. repeat split.
        -- intros e' He'. inversion He'.
        -- intros t Ht Hn.
           assert (Htrue : existsb (λ t, String.eqb (name t) e) listed = true)
             by (apply Hsome; eauto).
           congruence.
Qed.

(** X13: run against this server, the tool check of the test fails on
    its first expected tool: whatever [tools/list] returns, the check
    throws [generate_image_gpt tool not found]. *)
Theorem test_tool_check_fails_on_server (w w' : world) (result : ListToolsResult) :
  list_tools w = (Normal result, w') →
  verify_expected expectedTools (tools_of (Some result))
  = Some {| code := None; message := "generate_image_gpt tool not found" |}.
Proof. intros [= <- _]. reflexivity. Qed.

End IntegrationTestFacts.

(** ** The further properties at sample inputs *)


Lemma is_error_iff_failure_witness :
  call_tool unit Sample.rejecting Sample.plain_text
    Sample.dalle3_n5 Sample.empty_world
  = (Normal (error_result
               {| code := None; message := "401 Incorrect API key provided" |}),
     world_after_catch
       {| code := None; message := "401 Incorrect API key provided" |}
       (world_after_call (arguments Sample.dalle3_n5) Sample.empty_world)) ∧
  isError (error_result
             {| code := None; message := "401 Incorrect API key provided" |})
  ≠ Some false.
Proof.
  assert (Hrun : call_tool unit Sample.rejecting Sample.plain_text
                   Sample.dalle3_n5 Sample.empty_world
                 = (Normal (error_result
                              {| code := None;
                                 message := "401 Incorrect API key provided" |}),
                    world_after_catch
                      {| code := None;
                         message := "401 Incorrect API key provided" |}
                      (world_after_call (arguments Sample.dalle3_n5)
                         Sample.empty_world))) by reflexivity.
  split; [exact Hrun |].
  destruct (is_error_iff_failure _ _ _ _ _ _ _ Hrun) as (_ & _ & Hnever).
  exact Hnever.
Defined.

Lemma options_pass_through_witness :
  get (build_options (arguments Sample.dalle3_n5)) "size"
  = prop (arguments Sample.dalle3_n5) "size".
Proof.
  apply options_pass_through.
  - apply list_elem_of_In. vm_compute. tauto.
  - discriminate.
  - intros _. discriminate.
Defined.

Lemma model_tag_matches_enum_witness :
  prop (arguments Sample.unlisted_model) "model" = VStr "gpt-image-1-mini" ∧
  get (build_options (arguments Sample.unlisted_model)) "model"
  ≠ VStr "gpt-image-1-mini".
Proof.
  split; [reflexivity |].
  destruct (model_tag_matches_enum (arguments Sample.unlisted_model))
    as [_ Hiff].
  intros Htag. apply (Hiff "gpt-image-1-mini" eq_refl) in Htag.
  apply list_elem_of_In in Htag. vm_compute in Htag.
  intuition discriminate.
Defined.

Lemma non_string_model_is_dalle2_witness :
  build_options {[ "model" := VNum (num_of_Z 3) ]}
  = dalle2_options {[ "model" := VNum (num_of_Z 3) ]}.
Proof. apply non_string_model_is_dalle2. intros s. discriminate. Defined.

Lemma falsy_model_gets_schema_default_witness :
  default_of generate_image_tool "model"
  = Some (get (build_options {[ "model" := VNull ]}) "model").
Proof. apply falsy_model_gets_schema_default. reflexivity. Defined.

Lemma schema_and_options_agree_witness :
  is_Some (property_of generate_image_tool "style") ∧
  ∃ m, "style" ∈ keys (build_options {[ "model" := VStr (model_id m) ]}).
Proof.
  destruct schema_and_options_agree as [Hcovers Hused].
  assert (Hstyle : is_Some (property_of generate_image_tool "style")).
  { apply (Hcovers (arguments Sample.dalle3_n5)).
    apply list_elem_of_In. vm_compute. tauto. }
  split; [exact Hstyle |].
  apply Hused; [exact Hstyle | discriminate | discriminate].
Defined.

Lemma startup_inversion_witness :
  startup (Some "test-api-key")
  = (key_format_warning ++ ["Image Generation MCP server running on stdio"],
     Serving "test-api-key") ∧
  startsWith "test-api-key" "sk-" = false.
Proof.
  assert (Hrun : startup (Some "test-api-key")
                 = (key_format_warning ++
                    ["Image Generation MCP server running on stdio"],
                    Serving "test-api-key")) by reflexivity.
  split; [exact Hrun |].
  destruct (startup_inversion (Some "test-api-key")
              (key_format_warning ++
               ["Image Generation MCP server running on stdio"]))
    as [_ Hserving].
  destruct (Hserving "test-api-key" Hrun) as (_ & _ & [(_ & Hlines) | (Hprefix & _)]).
  - discriminate.
  - exact Hprefix.
Defined.

Lemma request_ids_consecutive_witness :
  map IntegrationTest.id
    (IntegrationTest.create_in_turn
       [ ("initialize", VNull); ("tools/list", VUndefined);
         ("tools/call", VNull) ]
       IntegrationTest.initial_requestId).1
  = [1; 2; 3]%Z.
Proof.
  apply (IntegrationTestFacts.request_ids_consecutive
           [ ("initialize", VNull); ("tools/list", VUndefined);
             ("tools/call", VNull) ] 1);
    [reflexivity | vm_compute; discriminate].
Defined.

Lemma verify_expected_first_missing_witness :
  ∃ before missing after,
    IntegrationTest.expectedTools = before ++ missing :: after ∧
    (∀ t, t ∈ [generate_image_tool] → name t ≠ missing).
Proof.
  destruct (IntegrationTestFacts.verify_expected_first_missing
              IntegrationTest.expectedTools [generate_image_tool])
    as [_ Hfirst].
  destruct (Hfirst {| code := None;
                      message := "generate_image_gpt tool not found" |} eq_refl)
    as (before & missing & after & Hsplit & _ & Hmissing & _).
  exists before, missing, after. split; [exact Hsplit | exact Hmissing].
Defined.

Lemma test_tool_check_fails_on_server_witness :
  IntegrationTest.verify_expected IntegrationTest.expectedTools
    (IntegrationTest.tools_of (Some {| tools := [generate_image_tool] |}))
  = Some {| code := None; message := "generate_image_gpt tool not found" |}.
Proof.
  apply (IntegrationTestFacts.test_tool_check_fails_on_server
           Sample.empty_world Sample.empty_world).
  reflexivity.
Defined.
